(** * Nexus AI chatbot: prompt assembly, reply clean-up and the chat routes

    A shallow embedding of [app.py]: the helper [get_gemini_response]
    (prompt assembly, the call of the generative model, the clean-up of the
    reply and the two error strings), the Flask routes [index] and
    [clear_chat] that keep the chat history in the session, the code that
    runs when [app.py] is loaded, and the script [list_models.py]. *)

From Stdlib Require Import Ascii String.
From stdpp Require Import gmap strings list fin_maps.


(** ** Python strings

    A [str] is modelled as a [string] (the UTF-8 bytes of the text).  The
    three characters the code looks for are ASCII, so they never occur
    inside the encoding of another character. *)

Module Py.

Definition LF : ascii := "010"%char.

(** The one-character string written ['\n'] in the source. *)
Definition nl : string := String LF "".

(** [sep.join(l)] *)
Fixpoint join (sep : string) (l : list string) : string :=
  match l with
  | [] => ""
  | [x] => x
  | x :: xs => x +:+ sep +:+ join sep xs
  end.

(** [s.replace(old, new)] for a non-empty [old]: the occurrences are found
    from the left and do not overlap.  [skip] counts the characters of the
    occurrence just replaced that are still to be dropped. *)
Fixpoint replace_from (old new : string) (skip : nat) (s : string) : string :=
  match s with
  | "" => ""
  | String c s' =>
      match skip with
      | S k => replace_from old new k s'
      | O =>
          if String.prefix old s
          then new +:+ replace_from old new (String.length old - 1) s'
          else String c (replace_from old new 0 s')
      end
  end.

(** [s.replace("", new)] puts [new] before every character and at the end. *)
Fixpoint replace_empty (new : string) (s : string) : string :=
  match s with
  | "" => new
  | String c s' => new +:+ String c (replace_empty new s')
  end.

Definition replace (old new s : string) : string :=
  match old with
  | "" => replace_empty new s
  | _ => replace_from old new 0 s
  end.

(** Every character of [s] rewritten by [f], the pieces concatenated. *)
Fixpoint expand (f : ascii -> string) (s : string) : string :=
  match s with
  | "" => ""
  | String c s' => f c +:+ expand f s'
  end.

(** [c in s] for a character [c]. *)
Fixpoint occurs (c : ascii) (s : string) : bool :=
  match s with
  | "" => false
  | String d s' => Ascii.eqb c d || occurs c s'
  end.

(** [sub in s] for a string [sub]. *)
Fixpoint contains (sub s : string) : bool :=
  String.prefix sub s ||
  match s with
  | "" => false
  | String _ s' => contains sub s'
  end.

End Py.

(** ** The reply clean-up

    [cleaned_text = response.text.replace('*', '').replace('|', '').replace('\n', '<br>')] *)

Definition sanitize (text : string) : string :=
  Py.replace Py.nl "<br>" (Py.replace "|" "" (Py.replace "*" "" text)).

(** What the clean-up does to one character, in the words of its
    description: asterisks and vertical bars vanish, a newline becomes the
    marker, everything else stays. *)
Definition sanitize_char (c : ascii) : string :=
  if Ascii.eqb c "*" then ""
  else if Ascii.eqb c "|" then ""
  else if Ascii.eqb c Py.LF then "<br>"
  else String c "".

(** ** Turns and the chat history

    A turn is the dict [{'role': ..., 'parts': [...]}]: the role is a string
    and the text is a list of fragments.  The history, a Python list of
    turns, is a [transcript]. *)

Record turn := Turn { role : string; parts : list string }.

Abbreviation transcript := (list turn).

(** ** Effects

    A computation may raise, and it acts on the world: the Flask session of
    the request, and the trace of what it printed and what it sent to the
    generative model. *)

(** An exception, as far as the code looks at it: [str(e)]. *)
Record exn := Exception { str : string }.

Definition IndexError : exn := Exception "list index out of range".
Definition KeyError (key : string) : exn := Exception ("'" +:+ key +:+ "'").

Inductive outcome (A : Type) : Type :=
| Returns (a : A)
| Raises (e : exn).
Arguments Returns {A} a.
Arguments Raises {A} e.

Inductive event :=
| Print (line : string)
| GenerateContent (prompt : string).

Record world := World {
  session : gmap string transcript;
  trace : list event
}.

Definition M (A : Type) : Type := world -> outcome A * world.

Definition ret {A} (a : A) : M A := fun w => (Returns a, w).

Definition raise {A} (e : exn) : M A := fun w => (Raises e, w).

Definition bind {A B} (m : M A) (k : A -> M B) : M B :=
  fun w =>
    match m w with
    | (Returns a, w') => k a w'
    | (Raises e, w') => (Raises e, w')
    end.

(** [try: body except Exception as e: handler(e)] *)
Definition try_except {A} (body : M A) (handler : exn -> M A) : M A :=
  fun w =>
    match body w with
    | (Returns a, w') => (Returns a, w')
    | (Raises e, w') => handler e w'
    end.

Definition lift {A} (o : outcome A) : M A := fun w => (o, w).

Definition emit (ev : event) : M unit :=
  fun w => (Returns tt, World (session w) (trace w ++ [ev])).

Definition print (line : string) : M unit := emit (Print line).

Declare Scope py_scope.
Delimit Scope py_scope with py.
Notation "x <- m ;; k" := (bind m (fun x => k))
  (at level 100, m at next level, right associativity) : py_scope.
Notation "m ;;; k" := (bind m (fun _ => k))
  (at level 100, right associativity) : py_scope.

(** *** The session ([flask.session], a dict) *)

Definition KEY : string := "chat_history".

(** [key in session] *)
Definition session_contains (key : string) : M bool :=
  fun w => (Returns (bool_decide (is_Some (session w !! key))), w).

(** [session[key]] *)
Definition session_getitem (key : string) : M transcript :=
  fun w =>
    match session w !! key with
    | Some h => (Returns h, w)
    | None => (Raises (KeyError key), w)
    end.

(** [session.get(key, default)] *)
Definition session_get (key : string) (dflt : transcript) : M transcript :=
  fun w => (Returns (default dflt (session w !! key)), w).

(** [session[key] = h] *)
Definition session_setitem (key : string) (h : transcript) : M unit :=
  fun w => (Returns tt, World (<[key := h]> (session w)) (trace w)).

(** [session.pop(key, None)] *)
Definition session_pop (key : string) : M (option transcript) :=
  fun w => (Returns (session w !! key), World (delete key (session w)) (trace w)).

(** [l.append(item)] where [l] is the list object stored under [key]: the
    list is changed in place, so the session sees the new item at once. *)
Definition list_append (key : string) (item : turn) : M unit :=
  fun w => (Returns tt, World (alter (fun l => l ++ [item]) key (session w)) (trace w)).

(** ** The generative model (external) *)

(** The object returned by [generate_content]; reading [.text] may raise. *)
Record GenerateContentResponse := { text : outcome string }.

Record GenerativeModel := {
  generate_content : string -> outcome GenerateContentResponse
}.

Definition call_generate_content (m : GenerativeModel) (prompt : string)
  : M GenerateContentResponse :=
  (emit (GenerateContent prompt) ;;; lift (generate_content m prompt))%py.

(** ** Prompt assembly (the first half of the [try] block) *)

(** The loop over [chat_history[:-1]]. *)
Definition conversation_history (h : transcript) : string :=
  fold_left
    (fun conversation item =>
       conversation +:+ (role item +:+ ": " +:+ Py.join " " (parts item) +:+ Py.nl))
    (removelast h) "".

(** [chat_history[-1]['parts'][0] if chat_history else ""] *)
Definition last_user_message (h : transcript) : outcome string :=
  match last h with
  | None => Returns ""
  | Some item =>
      match parts item with
      | [] => Raises IndexError
      | p :: _ => Returns p
      end
  end.

Definition assemble (h : transcript) : outcome string :=
  match last_user_message h with
  | Returns m => Returns (conversation_history h +:+ ("user: " +:+ m +:+ Py.nl))
  | Raises e => Raises e
  end.

(** The prompt as its description has it: one line per turn but the last,
    then a line labelled [user] carrying the whole text of the last turn. *)
Definition turn_text (t : turn) : string := Py.join " " (parts t).

Definition turn_line (t : turn) : string :=
  role t +:+ ": " +:+ turn_text t +:+ Py.nl.

Fixpoint concat_lines (ls : list string) : string :=
  match ls with
  | [] => ""
  | l :: ls' => l +:+ concat_lines ls'
  end.

Definition assemble_spec (init : transcript) (final : turn) : string :=
  concat_lines (map turn_line init) +:+ ("user: " +:+ turn_text final +:+ Py.nl).

(** ** The helper and the routes *)

Definition NOT_INITIALIZED : string :=
  "Error: Gemini model is not initialized. Check API key and configuration.".

Definition could_not_connect (e : exn) : string :=
  "Error: Could not connect to Nexus AI. Please try again. (" +:+ str e +:+ ")".

Definition WELCOME : turn :=
  Turn "model"
    ["Hi! I’m Nexus AI — your intelligent assistant. How can I help you today?"].

Inductive response :=
| Redirect (endpoint : string)
| Body (content : string) (status : nat)
| BadRequest.

Record request := Request { method : string; form : gmap string string }.

(** [if s:] on a string *)
Definition truthy (s : string) : bool :=
  match s with
  | "" => false
  | _ => true
  end.

(** ['=' * n] *)
Fixpoint times (s : string) (n : nat) : string :=
  match n with
  | O => ""
  | S k => s +:+ times s k
  end.

Section App.

(** The global [model], set once at start-up: [None] or a model object. *)
Variable model : option GenerativeModel.

(** [render_template] of Flask, which may raise. *)
Variable render_template : string -> transcript -> outcome string.

Definition get_gemini_response (chat_history : transcript) : M string :=
  match model with
  | None => ret NOT_INITIALIZED
  | Some m =>
      try_except
        (conversation <- lift (assemble chat_history) ;;
         response <- call_generate_content m conversation ;;
         raw <- lift (text response) ;;
         ret (sanitize raw))%py
        (fun e =>
           (print ("Gemini API Error: " +:+ str e) ;;;
            ret (could_not_connect e))%py)
  end.

(** The [POST] branch once the form field has been read.  The name
    [current_history] of the source is a reference to the list held in the
    session, so what it denotes is read back from there after each
    [append]. *)
Definition post_message (user_message_text : string) : M unit :=
  if truthy user_message_text then
    (_ <- session_getitem KEY ;;
     list_append KEY (Turn "user" [user_message_text]) ;;;
     current_history <- session_getitem KEY ;;
     ai_response_text <- get_gemini_response current_history ;;
     list_append KEY (Turn "model" [ai_response_text]) ;;;
     current_history <- session_getitem KEY ;;
     session_setitem KEY current_history)%py
  else ret tt.

(** [if 'chat_history' not in session: session['chat_history'] = [...]] *)
Definition seed_history : M unit :=
  (present <- session_contains KEY ;;
   if present then ret tt else session_setitem KEY [WELCOME])%py.

Definition render_page : M response :=
  (chat_history_display <- session_get KEY [] ;;
   try_except
     (html <- lift (render_template "index.html" chat_history_display) ;;
      ret (Body html 200))
     (fun e =>
        print (times "=" 50) ;;;
        print "CRITICAL ERROR: Failed to render 'index.html'." ;;;
        print ("Error: " +:+ str e) ;;;
        print "Please check that 'index.html' is inside your 'templates' folder." ;;;
        print (times "=" 50) ;;;
        ret (Body "Error: Template not found. Check terminal for details." 500)))%py.

(** The route [/].  A form without the field [message] makes
    [request.form['message']] abort the request with status 400. *)
Definition index (req : request) : M response :=
  (seed_history ;;;
   if String.eqb (method req) "POST" then
     match form req !! "message" with
     | None => ret BadRequest
     | Some user_message_text =>
         post_message user_message_text ;;;
         ret (Redirect "index")
     end
   else render_page)%py.

(** The route [/clear]. *)
Definition clear_chat : M response :=
  (_ <- session_pop KEY ;;
   ret (Redirect "index"))%py.

(** What a read of the history gives: the list [index] finds in the
    session once its first statement has run. *)
Definition read_transcript (s : gmap string transcript) : transcript :=
  default [WELCOME] (s !! KEY).

End App.

(** The call of the model fails with [e] on the prompt [p]: either
    [generate_content] raises, or it returns an object whose [.text]
    raises. *)
Definition client_raises (m : GenerativeModel) (p : string) (e : exn) : Prop :=
  generate_content m p = Raises e \/
  exists r, generate_content m p = Returns r /\ text r = Raises e.

(** The call of the model succeeds on [p] with the raw text [raw]. *)
Definition client_returns (m : GenerativeModel) (p raw : string) : Prop :=
  exists r, generate_content m p = Returns r /\ text r = Returns raw.

(** A turn as the routes make them: exactly one fragment of text. *)
Definition one_fragment (t : turn) : Prop := exists p, parts t = [p].

(** The prompts that a trace shows were sent to the model, in order. *)
Fixpoint prompts_sent (evs : list event) : list string :=
  match evs with
  | [] => []
  | GenerateContent p :: evs' => p :: prompts_sent evs'
  | Print _ :: evs' => prompts_sent evs'
  end.

(** The lines that a trace shows were printed, in order. *)
Fixpoint printed (evs : list event) : list string :=
  match evs with
  | [] => []
  | Print l :: evs' => l :: printed evs'
  | GenerateContent _ :: evs' => printed evs'
  end.



(** ** The scripts: start-up of [app.py] and [list_models.py]

    The code that runs when a module is loaded talks to the operating
    system and to the [genai] package.  What these answer is a record of
    the surroundings; what the script does to them (the lines it prints and
    the calls it makes, in order) is its log. *)

Module Script.

Inductive action :=
| Say (line : string)
| Configure (api_key : option string)
| Construct (model_name : string)
| ListModels.

(** A script step: it may raise, and it adds to the log. *)
Definition script (A : Type) : Type := list action -> outcome A * list action.

Definition sret {A} (a : A) : script A := fun log => (Returns a, log).

Definition sraise {A} (e : exn) : script A := fun log => (Raises e, log).

Definition sbind {A B} (m : script A) (k : A -> script B) : script B :=
  fun log =>
    match m log with
    | (Returns a, log') => k a log'
    | (Raises e, log') => (Raises e, log')
    end.

Definition stry {A} (body : script A) (handler : exn -> script A) : script A :=
  fun log =>
    match body log with
    | (Returns a, log') => (Returns a, log')
    | (Raises e, log') => handler e log'
    end.

Definition act (a : action) : script unit := fun log => (Returns tt, log ++ [a]).

Definition say (line : string) : script unit := act (Say line).

(** A call of the surroundings: logged, then answered. *)
Definition call {A} (a : action) (answer : outcome A) : script A :=
  fun log => (answer, log ++ [a]).

Declare Scope script_scope.
Delimit Scope script_scope with script.
Notation "x <- m ;; k" := (sbind m (fun x => k))
  (at level 100, m at next level, right associativity) : script_scope.
Notation "m ;;; k" := (sbind m (fun _ => k))
  (at level 100, right associativity) : script_scope.

(** [for x in l: body(x)] *)
Fixpoint for_each {A} (l : list A) (body : A -> script unit) : script unit :=
  match l with
  | [] => sret tt
  | x :: l' => (body x ;;; for_each l' body)%script
  end.

(** The lines of a log. *)
Fixpoint said (log : list action) : list string :=
  match log with
  | [] => []
  | Say l :: log' => l :: said log'
  | _ :: log' => said log'
  end.

(** The calls of a log (everything but the lines). *)
Fixpoint calls (log : list action) : list action :=
  match log with
  | [] => []
  | Say _ :: log' => calls log'
  | a :: log' => a :: calls log'
  end.

(** *** Start-up of [app.py] *)

(** An entry of what [genai.list_models()] gave: a dict, looked at with
    [m.get('name')] and [m.get('id')], or another object, looked at with
    [getattr]; [repr] is what printing the entry itself shows.  A key or
    attribute that is there holds a string. *)
Inductive entry :=
| DictEntry (name id : option string) (repr : string)
| ObjectEntry (name id : option string) (repr : string).

(** What [genai.list_models()] gave: a list or tuple of entries, or
    something else, of which only its printed form matters. *)
Inductive listing :=
| Sequence (items : list entry)
| OtherValue (repr : string).

Record surroundings := {
  getcwd : string;
  path_join : string -> string -> string;
  isdir : string -> bool;
  getenv : string -> option string;
  configure : option string -> outcome unit;
  new_GenerativeModel : string -> outcome GenerativeModel;
  list_models : outcome listing
}.

(** How the start-up ends: by [exit()], or with the global [model] set. *)
Inductive boot :=
| Exited
| Started (model : option GenerativeModel).

Definition DEFAULT_MODEL : string := "gemini-2.5-flash-preview-09-2025".

(** [x or y] where [x] is a string or [None] *)
Definition or_else (x : option string) (y : string) : string :=
  match x with
  | Some s => if truthy s then s else y
  | None => y
  end.

(** What is printed after [" -"] for an entry:
    [m.get('name') or m.get('id') or m] for a dict,
    [getattr(m, 'name', getattr(m, 'id', str(m)))] otherwise. *)
Definition label (m : entry) : string :=
  match m with
  | DictEntry name id repr => or_else name (or_else id repr)
  | ObjectEntry name id repr => default (default repr id) name
  end.

Definition print_available (available : listing) : script unit :=
  match available with
  | Sequence items => for_each items (fun m => say (" - " +:+ label m))
  | OtherValue repr => say repr
  end.

Section Startup.

Variable os : surroundings.

Definition TEMPLATE_DIR : string := path_join os (getcwd os) "templates".
Definition STATIC_DIR : string := path_join os (getcwd os) "static".

Definition folder_not_found (folder dir : string) : script unit :=
  (say (times "=" 50) ;;;
   say ("CRITICAL ERROR: '" +:+ folder +:+ "' folder not found at: " +:+ dir) ;;;
   say "SOLUTION: 'cd' into your 'nexus_ai' folder and run 'python app.py' from there." ;;;
   say (times "=" 50))%script.

Definition key_not_found : script unit :=
  (say (times "=" 50) ;;;
   say "CRITICAL ERROR: GEMINI_API_KEY not found in the environment." ;;;
   say "SOLUTION: Make sure you have a '.env' file with 'GEMINI_API_KEY=your_key_here'." ;;;
   say "You can also set GEMINI_MODEL to a model that exists for your account: e.g. GEMINI_MODEL=chat-bison-001" ;;;
   say (times "=" 50))%script.

(** The [try] block that sets the global [model]. *)
Definition load_model (API_KEY : option string) (GEMINI_MODEL : string)
  : script (option GenerativeModel) :=
  stry
    (call (Configure API_KEY) (configure os API_KEY) ;;;
     stry
       (m <- call (Construct GEMINI_MODEL) (new_GenerativeModel os GEMINI_MODEL) ;;
        say ("Model '" +:+ GEMINI_MODEL +:+ "' loaded successfully.") ;;;
        sret (Some m))
       (fun inner_e =>
          say ("Requested model '" +:+ GEMINI_MODEL +:+ "' failed to load: "
               +:+ str inner_e) ;;;
          say "Attempting to list available models to help you choose a supported one..." ;;;
          stry
            (available <- call ListModels (list_models os) ;;
             say "Available models returned by the API:" ;;;
             print_available available ;;;
             say "Set the GEMINI_MODEL environment variable to one of the above model identifiers and restart the app.")
            (fun list_e =>
               say ("Could not list models: " +:+ str list_e) ;;;
               say "If you're using Google Cloud Generative AI, ensure your API key and permissions are correct.") ;;;
          sret None))%script
    (fun e =>
       (say ("Error configuring Gemini API client: " +:+ str e) ;;;
        sret None)%script).

(** [if not API_KEY]: the variable is unset, or set to the empty string. *)
Definition key_missing (API_KEY : option string) : bool :=
  match API_KEY with
  | Some k => negb (truthy k)
  | None => true
  end.

Definition startup : script boot :=
  (say "--- Nexus AI Boot Check ---" ;;;
   say ("Current Working Directory: " +:+ getcwd os) ;;;
   if negb (isdir os TEMPLATE_DIR) then
     folder_not_found "templates" TEMPLATE_DIR ;;; sret Exited
   else
     say "SUCCESS: Found 'templates' folder." ;;;
     if negb (isdir os STATIC_DIR) then
       folder_not_found "static" STATIC_DIR ;;; sret Exited
     else
       say "SUCCESS: Found 'static' folder." ;;;
       say "---------------------------" ;;;
       let API_KEY := getenv os "GEMINI_API_KEY" in
       let GEMINI_MODEL := default DEFAULT_MODEL (getenv os "GEMINI_MODEL") in
       if key_missing API_KEY then
         key_not_found ;;; sret Exited
       else
         model <- load_model API_KEY GEMINI_MODEL ;;
         sret (Started model))%script.

End Startup.

(** *** [list_models.py] *)

(** A model as [genai.list_models()] describes it. *)
Record ModelInfo := {
  name : string;
  supported_generation_methods : list string
}.

(** What iterating over [genai.list_models()] gives: the models it yields
    and, if the iteration breaks off, the exception that ends it. *)
Record stream := {
  yielded : list ModelInfo;
  broken : option exn
}.

Record api := {
  environ : string -> option string;
  api_configure : option string -> outcome unit;
  api_list_models : outcome stream
}.

(** ['generateContent' in m.supported_generation_methods] *)
Definition generates_content (m : ModelInfo) : bool :=
  bool_decide ("generateContent" ∈ supported_generation_methods m).

Definition list_models_script (a : api) : script unit :=
  stry
    (call (Configure (environ a "GEMINI_API_KEY"))
       (api_configure a (environ a "GEMINI_API_KEY")) ;;;
     say "Available models:" ;;;
     models <- call ListModels (api_list_models a) ;;
     for_each (yielded models)
       (fun m => if generates_content m then say (name m) else sret tt) ;;;
     match broken models with
     | Some e => sraise e
     | None => sret tt
     end)%script
    (fun e => say ("Error listing models: " +:+ str e)).

End Script.

(** The lines that [print_available] prints for a listing. *)
Definition listing_lines (available : Script.listing) : list string :=
  match available with
  | Script.Sequence items => map (fun m => " - " +:+ Script.label m) items
  | Script.OtherValue repr => [repr]
  end.

(** The start-up checks pass: both folders are there and the key is set to
    a non-empty string. *)
Definition checks_pass (os : Script.surroundings) : Prop :=
  Script.isdir os (Script.TEMPLATE_DIR os) = true
  /\ Script.isdir os (Script.STATIC_DIR os) = true
  /\ Script.key_missing (Script.getenv os "GEMINI_API_KEY") = false.

(** Surroundings to try the scripts on: the folders are there, the key is
    set, the model name is not, the constructor refuses the name and the
    listing is a generator. *)
Definition demo_surroundings : Script.surroundings := {|
  Script.getcwd := "/srv/nexus_ai";
  Script.path_join := fun a b => a +:+ "/" +:+ b;
  Script.isdir := fun _ => true;
  Script.getenv := fun k => if String.eqb k "GEMINI_API_KEY" then Some "secret" else None;
  Script.configure := fun _ => Returns tt;
  Script.new_GenerativeModel := fun _ => Raises (Exception "404 model not found");
  Script.list_models := Returns (Script.OtherValue "<generator object>")
|}.

(** An API that yields three models and then breaks off. *)
Definition demo_api : Script.api := {|
  Script.environ := fun _ => None;
  Script.api_configure := fun _ => Returns tt;
  Script.api_list_models :=
    Returns {| Script.yielded :=
                 [ {| Script.name := "models/embedding-001";
                      Script.supported_generation_methods := ["embedContent"] |};
                   {| Script.name := "models/gemini-pro";
                      Script.supported_generation_methods :=
                        ["generateContent"; "countTokens"] |};
                   {| Script.name := "models/gemini-flash";
                      Script.supported_generation_methods := ["generateContent"] |} ];
               Script.broken := Some (Exception "503 unavailable") |}
|}.

(** * Properties *)

(** ** Strings *)

Section StringFacts.

Lemma append_cons (c : ascii) (a b : string) :
  String c a +:+ b = String c (a +:+ b).
Proof. reflexivity. Qed.

Lemma append_nil_l (b : string) : "" +:+ b = b.
Proof. reflexivity. Qed.

Lemma append_nil_r (s : string) : s +:+ "" = s.
Proof.
  induction s as [|c s IH]; [reflexivity|].
  now rewrite append_cons, IH.
Qed.

Lemma append_assoc (a b c : string) : (a +:+ b) +:+ c = a +:+ (b +:+ c).
Proof.
  induction a as [|x a IH]; [reflexivity|].
  now rewrite !append_cons, IH.
Qed.

Lemma expand_app f (a b : string) :
  Py.expand f (a +:+ b) = Py.expand f a +:+ Py.expand f b.
Proof.
  induction a as [|x a IH]; [reflexivity|].
  rewrite append_cons. cbn [Py.expand].
  now rewrite IH, append_assoc.
Qed.

Lemma expand_expand f g (s : string) :
  Py.expand f (Py.expand g s) = Py.expand (fun c => Py.expand f (g c)) s.
Proof.
  induction s as [|x s IH]; [reflexivity|].
  cbn [Py.expand]. now rewrite expand_app, IH.
Qed.

Lemma expand_ext f g (s : string) :
  (forall c, f c = g c) -> Py.expand f s = Py.expand g s.
Proof.
  intros E. induction s as [|x s IH]; [reflexivity|].
  cbn [Py.expand]. now rewrite E, IH.
Qed.

(** Replacing a one-character pattern works character by character. *)
Lemma replace_char (a : ascii) (new s : string) :
  Py.replace (String a "") new s
  = Py.expand (fun c => if Ascii.eqb c a then new else String c "") s.
Proof.
  unfold Py.replace.
  induction s as [|c s IH]; [reflexivity|].
  cbn [Py.replace_from Py.expand String.prefix String.length Nat.sub].
  destruct (ascii_dec a c) as [->|Hne].
  - rewrite Ascii.eqb_refl.
    replace (String.prefix "" s) with true by (now destruct s).
    now rewrite IH.
  - destruct (Ascii.eqb_spec c a) as [->|_]; [congruence|].
    now rewrite IH.
Qed.

Lemma occurs_app c (a b : string) :
  Py.occurs c (a +:+ b) = Py.occurs c a || Py.occurs c b.
Proof.
  induction a as [|x a IH]; [reflexivity|].
  rewrite append_cons. cbn [Py.occurs].
  now rewrite IH, orb_assoc.
Qed.

Lemma occurs_expand c f (s : string) :
  (forall d, Py.occurs c (f d) = false) -> Py.occurs c (Py.expand f s) = false.
Proof.
  intros Hf. induction s as [|x s IH]; [reflexivity|].
  cbn [Py.expand]. now rewrite occurs_app, Hf, IH.
Qed.

End StringFacts.

(** ** The clean-up *)

Lemma sanitize_char_cases (c : ascii) :
  Py.expand (fun c => if Ascii.eqb c Py.LF then "<br>" else String c "")
    (Py.expand (fun c => if Ascii.eqb c "|" then "" else String c "")
       (if Ascii.eqb c "*" then "" else String c ""))
  = sanitize_char c.
Proof.
  unfold sanitize_char.
  destruct (Ascii.eqb c "*"); [reflexivity|].
  cbn [Py.expand]. rewrite ?append_nil_r.
  destruct (Ascii.eqb c "|"); [reflexivity|].
  cbn [Py.expand]. rewrite ?append_nil_r.
  destruct (Ascii.eqb c Py.LF); reflexivity.
Qed.

Lemma sanitize_expand (s : string) : sanitize s = Py.expand sanitize_char s.
Proof.
  unfold sanitize, Py.nl.
  rewrite !replace_char, !expand_expand.
  apply expand_ext. intros c.
  rewrite <- expand_expand. apply sanitize_char_cases.
Qed.

Lemma sanitize_char_clean (c d : ascii) :
  c = "*"%char \/ c = "|"%char \/ c = Py.LF ->
  Py.occurs c (sanitize_char d) = false.
Proof.
  unfold sanitize_char.
  destruct (Ascii.eqb_spec d "*") as [->|H1]; [reflexivity|].
  destruct (Ascii.eqb_spec d "|") as [->|H2]; [reflexivity|].
  destruct (Ascii.eqb_spec d Py.LF) as [->|H3].
  - intros [->|[->| ->]]; reflexivity.
  - intros Hc. cbn [Py.occurs]. rewrite orb_false_r.
    destruct (Ascii.eqb_spec c d) as [->|_]; [|reflexivity].
    destruct Hc as [->|[->| ->]]; congruence.
Qed.

(** A string without the three characters is left as it is. *)
Lemma sanitize_clean_id (x : string) :
  Py.occurs "*" x = false ->
  Py.occurs "|" x = false ->
  Py.occurs Py.LF x = false ->
  sanitize x = x.
Proof.
  rewrite sanitize_expand.
  induction x as [|c x IH]; [reflexivity|].
  cbn [Py.occurs Py.expand].
  intros [H1 H1']%orb_false_elim [H2 H2']%orb_false_elim [H3 H3']%orb_false_elim.
  rewrite IH by assumption.
  unfold sanitize_char.
  rewrite (Ascii.eqb_sym c "*"), H1, (Ascii.eqb_sym c "|"), H2,
    (Ascii.eqb_sym c Py.LF), H3.
  reflexivity.
Qed.

Lemma sanitize_output_clean (c : ascii) (x : string) :
  c = "*"%char \/ c = "|"%char \/ c = Py.LF ->
  Py.occurs c (sanitize x) = false.
Proof.
  intros Hc. rewrite sanitize_expand.
  apply occurs_expand. intros d. now apply sanitize_char_clean.
Qed.

(** C5: the clean-up deletes every asterisk and every vertical bar and puts
    the marker [<br>] in place of every newline: its result is the input
    rewritten character by character with [sanitize_char]; on the sample
    ["a*b|c\nd"] it gives ["abc<br>d"]. *)
Theorem sanitize_characterwise :
  (forall raw : string, sanitize raw = Py.expand sanitize_char raw) /\
  sanitize ("a*b|c" +:+ Py.nl +:+ "d") = "abc<br>d".
Proof.
  split; [exact sanitize_expand | reflexivity].
Qed.

(** C6: on a string that holds no asterisk, no vertical bar and no newline,
    cleaning twice is the same as cleaning once. *)
Theorem sanitize_idempotent_on_clean (x : string) :
  Py.occurs "*" x = false ->
  Py.occurs "|" x = false ->
  Py.occurs Py.LF x = false ->
  sanitize (sanitize x) = sanitize x.
Proof.
  intros H1 H2 H3.
  now rewrite !(sanitize_clean_id x H1 H2 H3).
Qed.

Lemma sanitize_idempotent_on_clean_witness :
  Py.occurs "*" "Hello <b>there</b>" = false /\
  sanitize (sanitize "Hello <b>there</b>") = sanitize "Hello <b>there</b>".
Proof.
  split; [reflexivity|].
  apply (sanitize_idempotent_on_clean "Hello <b>there</b>"); reflexivity.
Defined.

(** C8: whatever the input, the cleaned string holds no asterisk, no
    vertical bar and no newline; hence cleaning is idempotent on every
    string. *)
Theorem sanitize_output_clean_idempotent (x : string) :
  Py.occurs "*" (sanitize x) = false /\
  Py.occurs "|" (sanitize x) = false /\
  Py.occurs Py.LF (sanitize x) = false /\
  sanitize (sanitize x) = sanitize x.
Proof.
  assert (H1 := sanitize_output_clean "*" x (or_introl eq_refl)).
  assert (H2 := sanitize_output_clean "|" x (or_intror (or_introl eq_refl))).
  assert (H3 := sanitize_output_clean Py.LF x (or_intror (or_intror eq_refl))).
  repeat split; try assumption.
  now apply sanitize_clean_id.
Qed.

Example sanitize_twice_on_markup :
  sanitize (sanitize ("*a*|" +:+ Py.nl)) = "a<br>".
Proof. reflexivity. Qed.

Example replace_overlap : Py.replace "aa" "b" "aaaaa" = "bba".
Proof. reflexivity. Qed.

Example replace_empty_pattern : Py.replace "" "-" "abc" = "-a-b-c-".
Proof. reflexivity. Qed.

(** ** Prompt assembly *)

Lemma fold_lines (f : turn -> string) (l : list turn) (acc : string) :
  fold_left (fun conversation item => conversation +:+ f item) l acc
  = acc +:+ concat_lines (map f l).
Proof.
  revert acc. induction l as [|t l IH]; intros acc.
  - cbn. now rewrite append_nil_r.
  - cbn [fold_left map concat_lines]. now rewrite IH, append_assoc.
Qed.

Lemma conversation_history_snoc (init : transcript) (final : turn) :
  conversation_history (init ++ [final]) = concat_lines (map turn_line init).
Proof.
  unfold conversation_history. rewrite removelast_last.
  now rewrite (fold_lines turn_line).
Qed.

Lemma last_user_message_snoc (init : transcript) (final : turn) :
  last_user_message (init ++ [final])
  = match parts final with
    | [] => Raises IndexError
    | p :: _ => Returns p
    end.
Proof. unfold last_user_message. now rewrite last_snoc. Qed.

(** A last turn without any fragment makes the assembly raise. *)
Lemma assemble_no_fragment (init : transcript) (r : string) :
  assemble (init ++ [Turn r []]) = Raises IndexError.
Proof. unfold assemble. now rewrite last_user_message_snoc. Qed.




(** C10: on the empty history the assembly does not raise: the prompt is
    ["user: \n"], and that is what the model is sent. *)
Theorem assemble_empty_history :
  assemble [] = Returns ("user: " +:+ Py.nl)
  /\ forall (m : GenerativeModel) (w : world),
       exists (reply : string) (evs : list event),
         get_gemini_response (Some m) [] w
         = (Returns reply,
            World (session w)
              (trace w ++ GenerateContent ("user: " +:+ Py.nl) :: evs)).
Proof.
  split; [reflexivity|].
  intros m w.
  unfold get_gemini_response, try_except, bind, lift, call_generate_content,
    bind, emit, lift, print, emit, ret.
  cbn.
  destruct (generate_content m _) as [r|e]; cbn.
  - destruct (text r) as [raw|e]; cbn.
    + exists (sanitize raw), []. reflexivity.
    + eexists _, [_]. rewrite <- app_assoc. reflexivity.
  - eexists _, [_]. rewrite <- app_assoc. reflexivity.
Qed.

(** ** The helper [get_gemini_response] *)

Ltac run_helper :=
  unfold get_gemini_response, try_except, call_generate_content, bind, lift,
    print, emit, ret;
  cbn [session trace fst snd].

Lemma world_eta (w : world) : World (session w) (trace w) = w.
Proof. now destruct w. Qed.

(** The helper always returns a string, and leaves the session alone. *)
Lemma get_gemini_response_returns
    (model : option GenerativeModel) (h : transcript) (w : world) :
  exists (reply : string) (evs : list event),
    get_gemini_response model h w
    = (Returns reply, World (session w) (trace w ++ evs)).
Proof.
  destruct model as [m|].
  - run_helper.
    destruct (assemble h) as [p|e].
    + destruct (generate_content m p) as [r|e].
      * destruct (text r) as [raw|e].
        -- exists (sanitize raw), [GenerateContent p]. reflexivity.
        -- cbn [session trace]. eexists _, [_; _].
           rewrite <- app_assoc. reflexivity.
      * cbn [session trace]. eexists _, [_; _].
        rewrite <- app_assoc. reflexivity.
    + eexists _, [_]. reflexivity.
  - exists NOT_INITIALIZED, []. cbn. now rewrite app_nil_r, world_eta.
Qed.

Lemma get_gemini_response_success
    (m : GenerativeModel) (h : transcript) (w : world) (p raw : string) :
  assemble h = Returns p ->
  client_returns m p raw ->
  get_gemini_response (Some m) h w
  = (Returns (sanitize raw),
     World (session w) (trace w ++ [GenerateContent p])).
Proof.
  intros Hp (r & Hr & Ht). run_helper.
  now rewrite Hp, Hr, Ht.
Qed.

Lemma get_gemini_response_failure
    (m : GenerativeModel) (h : transcript) (w : world) (p : string) (e : exn) :
  assemble h = Returns p ->
  client_raises m p e ->
  get_gemini_response (Some m) h w
  = (Returns (could_not_connect e),
     World (session w)
       (trace w ++ [GenerateContent p; Print ("Gemini API Error: " +:+ str e)])).
Proof.
  intros Hp [Hr|(r & Hr & Ht)]; run_helper.
  - rewrite Hp, Hr. cbn [session trace]. now rewrite <- app_assoc.
  - rewrite Hp, Hr, Ht. cbn [session trace]. now rewrite <- app_assoc.
Qed.

(** C3: when the call of the model raises, with whatever exception, the
    helper returns the string
    [Error: Could not connect to Nexus AI. Please try again. (<detail>)]
    where the detail is the text of the exception; it returns, it does not
    raise. *)
Theorem completion_failure_is_caught
    (m : GenerativeModel) (h : transcript) (w : world) (p : string) (e : exn) :
  assemble h = Returns p ->
  client_raises m p e ->
  get_gemini_response (Some m) h w
  = (Returns ("Error: Could not connect to Nexus AI. Please try again. ("
              +:+ str e +:+ ")"),
     World (session w)
       (trace w ++ [GenerateContent p; Print ("Gemini API Error: " +:+ str e)])).
Proof. exact (get_gemini_response_failure m h w p e). Qed.

Lemma completion_failure_is_caught_witness :
  get_gemini_response
    (Some {| generate_content := fun _ => Raises (Exception "429 quota exceeded") |})
    [WELCOME; Turn "user" ["hi"]] (World ∅ [])
  = (Returns "Error: Could not connect to Nexus AI. Please try again. (429 quota exceeded)",
     World ∅
       [GenerateContent
          ("model: Hi! I’m Nexus AI — your intelligent assistant. How can I help you today?"
           +:+ Py.nl +:+ "user: hi" +:+ Py.nl);
        Print "Gemini API Error: 429 quota exceeded"]).
Proof.
  apply (completion_failure_is_caught
           {| generate_content := fun _ => Raises (Exception "429 quota exceeded") |}
           [WELCOME; Turn "user" ["hi"]] (World ∅ []) _
           (Exception "429 quota exceeded")).
  - reflexivity.
  - left. reflexivity.
Defined.

(** C4: without a model ([model is None]) the helper returns, for every
    history, a fixed non-empty string that speaks of initialization and of
    configuration; the world is untouched, so nothing is sent to a model. *)
Theorem not_initialized_reply (h : transcript) (w : world) :
  get_gemini_response None h w = (Returns NOT_INITIALIZED, w)
  /\ NOT_INITIALIZED <> ""
  /\ Py.contains "initialized" NOT_INITIALIZED = true
  /\ Py.contains "configuration" NOT_INITIALIZED = true.
Proof.
  split; [reflexivity|].
  split; [discriminate|].
  split; reflexivity.
Qed.

(** ** The routes *)

Lemma alter_present {A} (f : A -> A) (m : gmap string A) (k : string) (x : A) :
  m !! k = Some x -> alter f k m = <[k := f x]> m.
Proof.
  intros Hk. apply map_eq. intros j.
  destruct (decide (k = j)) as [<-|Hne].
  - now rewrite lookup_alter_eq, lookup_insert_eq, Hk.
  - now rewrite lookup_alter_ne, lookup_insert_ne.
Qed.

Lemma read_transcript_insert (s : gmap string transcript) (h : transcript) :
  read_transcript (<[KEY := h]> s) = h.
Proof. unfold read_transcript. now rewrite lookup_insert_eq. Qed.

(** After the first statement of [index] the session holds the history that
    a read gives: the stored one, or the welcome turn alone. *)
Lemma seed_history_run (w : world) :
  seed_history w
  = (Returns tt,
     World (<[KEY := read_transcript (session w)]> (session w)) (trace w)).
Proof.
  unfold seed_history, bind, session_contains, session_setitem, ret,
    read_transcript.
  destruct (session w !! KEY) as [h|] eqn:E; cbn.
  - now rewrite (insert_id _ _ _ E), world_eta.
  - reflexivity.
Qed.

Lemma seed_history_present (w : world) :
  is_Some (session w !! KEY) ->
  <[KEY := read_transcript (session w)]> (session w) = session w.
Proof.
  intros [h E]. unfold read_transcript. rewrite E. now apply insert_id.
Qed.

Lemma truthy_nonempty (s : string) : s <> "" -> truthy s = true.
Proof. destruct s; [congruence | reflexivity]. Qed.

(** The [POST] branch on a non-empty message, from a session that holds the
    history [h]. *)
Lemma post_message_run
    (model : option GenerativeModel) (msg : string)
    (s : gmap string transcript) (t : list event) (h : transcript) :
  s !! KEY = Some h ->
  msg <> "" ->
  forall (reply : string) (evs : list event),
    get_gemini_response model (h ++ [Turn "user" [msg]])
      (World (<[KEY := h ++ [Turn "user" [msg]]]> s) t)
    = (Returns reply, World (<[KEY := h ++ [Turn "user" [msg]]]> s) (t ++ evs)) ->
    post_message model msg (World s t)
    = (Returns tt,
       World (<[KEY := h ++ [Turn "user" [msg]; Turn "model" [reply]]]> s)
         (t ++ evs)).
Proof.
  intros Hs Hmsg reply evs Hreply.
  unfold post_message. rewrite (truthy_nonempty msg Hmsg).
  unfold bind, session_getitem, list_append, session_setitem.
  cbn [session trace]. rewrite Hs. cbn [session trace].
  rewrite (alter_present _ _ _ _ Hs), lookup_insert_eq, Hreply.
  cbn [session trace].
  rewrite (alter_present _ _ _ _ (lookup_insert_eq _ _ _)), lookup_insert_eq.
  cbn [session trace].
  rewrite !insert_insert_eq, <- app_assoc.
  reflexivity.
Qed.

Lemma index_post_run
    (model : option GenerativeModel)
    (render_template : string -> transcript -> outcome string)
    (req : request) (msg : string) (w : world) :
  method req = "POST" ->
  form req !! "message" = Some msg ->
  index model render_template req w
  = match post_message model msg
            (World (<[KEY := read_transcript (session w)]> (session w)) (trace w))
    with
    | (Returns _, w') => (Returns (Redirect "index"), w')
    | (Raises e, w') => (Raises e, w')
    end.
Proof.
  intros Hm Hf. unfold index, bind at 1.
  rewrite seed_history_run, Hm. cbn [String.eqb Ascii.eqb Bool.eqb].
  rewrite Hf. unfold bind, ret.
  now destruct (post_message _ _ _) as [[[]|e] w'].
Qed.

(** C2: a [POST] with a non-empty message makes the history two turns
    longer: the user's turn with the message, then a model turn with the
    string the helper returned.  This is so in every case: when the model
    answers the turn holds the cleaned answer, when its call raises the turn
    holds the error string. *)
Theorem post_grows_by_two
    (model : option GenerativeModel)
    (render_template : string -> transcript -> outcome string)
    (req : request) (msg : string) (w : world) :
  method req = "POST" ->
  form req !! "message" = Some msg ->
  msg <> "" ->
  exists (reply : string) (w' : world),
    index model render_template req w = (Returns (Redirect "index"), w')
    /\ read_transcript (session w')
       = read_transcript (session w) ++ [Turn "user" [msg]; Turn "model" [reply]]
    /\ session w' !! KEY = Some (read_transcript (session w'))
    /\ length (read_transcript (session w'))
       = length (read_transcript (session w)) + 2
    /\ (forall m p raw,
          model = Some m ->
          assemble (read_transcript (session w) ++ [Turn "user" [msg]]) = Returns p ->
          client_returns m p raw ->
          reply = sanitize raw)
    /\ (forall m p e,
          model = Some m ->
          assemble (read_transcript (session w) ++ [Turn "user" [msg]]) = Returns p ->
          client_raises m p e ->
          reply = could_not_connect e).
Proof.
  intros Hm Hf Hmsg.
  set (before := read_transcript (session w)).
  set (sent := before ++ [Turn "user" [msg]]).
  set (w1 := World (<[KEY := sent]> (<[KEY := before]> (session w))) (trace w)).
  destruct (get_gemini_response_returns model sent w1) as (reply & evs & Hr).
  cbn [session trace w1] in Hr. fold w1 in Hr.
  exists reply,
    (World (<[KEY := before ++ [Turn "user" [msg]; Turn "model" [reply]]]>
              (<[KEY := before]> (session w)))
       (trace w ++ evs)).
  split; [|split; [|split; [|split; [|split]]]].
  - rewrite (index_post_run model render_template req msg w Hm Hf).
    fold before.
    now rewrite (post_message_run model msg _ (trace w) before
                   (lookup_insert_eq _ _ _) Hmsg reply evs Hr).
  - cbn [session]. apply read_transcript_insert.
  - cbn [session]. now rewrite read_transcript_insert, lookup_insert_eq.
  - cbn [session]. rewrite read_transcript_insert, length_app. reflexivity.
  - intros m p raw -> Hp Hc.
    rewrite (get_gemini_response_success m sent w1 p raw Hp Hc) in Hr.
    now injection Hr.
  - intros m p e -> Hp Hc.
    rewrite (get_gemini_response_failure m sent w1 p e Hp Hc) in Hr.
    now injection Hr.
Qed.

Lemma post_grows_by_two_witness :
  exists (reply : string) (w' : world),
    index None (fun _ _ => Returns "")
      (Request "POST" {["message" := "hi"]}) (World ∅ [])
    = (Returns (Redirect "index"), w')
    /\ read_transcript (session w')
       = [WELCOME; Turn "user" ["hi"]; Turn "model" [reply]].
Proof.
  destruct (post_grows_by_two None (fun _ _ => Returns "")
              (Request "POST" {["message" := "hi"]}) "hi" (World ∅ []))
    as (reply & w' & Hi & Hread & _).
  - reflexivity.
  - reflexivity.
  - discriminate.
  - exists reply, w'. split; [exact Hi | exact Hread].
Defined.

(** C9: a [POST] whose message is the empty string appends nothing and
    sends nothing to the model: a read of the history gives the same list
    before and after, the trace is the same, and a session that already
    holds a history is the same session. *)
Theorem empty_message_no_change
    (model : option GenerativeModel)
    (render_template : string -> transcript -> outcome string)
    (req : request) (w : world) :
  method req = "POST" ->
  form req !! "message" = Some "" ->
  exists w' : world,
    index model render_template req w = (Returns (Redirect "index"), w')
    /\ read_transcript (session w') = read_transcript (session w)
    /\ trace w' = trace w
    /\ (is_Some (session w !! KEY) -> w' = w).
Proof.
  intros Hm Hf.
  exists (World (<[KEY := read_transcript (session w)]> (session w)) (trace w)).
  split; [|split; [|split]].
  - now rewrite (index_post_run model render_template req "" w Hm Hf).
  - apply read_transcript_insert.
  - reflexivity.
  - intros Hs. now rewrite (seed_history_present w Hs), world_eta.
Qed.

Lemma empty_message_no_change_witness :
  exists w' : world,
    index None (fun _ _ => Returns "")
      (Request "POST" {["message" := ""]})
      (World {[KEY := [WELCOME; Turn "user" ["hi"]; Turn "model" ["hello"]]]} [])
    = (Returns (Redirect "index"), w')
    /\ read_transcript (session w')
       = [WELCOME; Turn "user" ["hi"]; Turn "model" ["hello"]]
    /\ trace w' = [].
Proof.
  destruct (empty_message_no_change None (fun _ _ => Returns "")
              (Request "POST" {["message" := ""]})
              (World {[KEY := [WELCOME; Turn "user" ["hi"]; Turn "model" ["hello"]]]} []))
    as (w' & Hi & Hread & Htrace & _).
  - reflexivity.
  - reflexivity.
  - exists w'. split; [exact Hi | split; [exact Hread | exact Htrace]].
Defined.

(** C7: [clear_chat] takes the history out of the session; the next [GET]
    of the page puts the welcome turn back and shows a history of exactly
    one turn, whose role is [model]. *)
Theorem clear_then_read
    (model : option GenerativeModel)
    (render_template : string -> transcript -> outcome string)
    (f : gmap string string) (w : world) :
  exists w1 : world,
    clear_chat w = (Returns (Redirect "index"), w1)
    /\ session w1 !! KEY = None
    /\ read_transcript (session w1) = [WELCOME]
    /\ length (read_transcript (session w1)) = 1
    /\ role WELCOME = "model"
    /\ exists (r : outcome response) (w2 : world),
         index model render_template (Request "GET" f) w1 = (r, w2)
         /\ session w2 !! KEY = Some [WELCOME]
         /\ forall html,
              render_template "index.html" [WELCOME] = Returns html ->
              r = Returns (Body html 200) /\ trace w2 = trace w.
Proof.
  exists (World (delete KEY (session w)) (trace w)).
  assert (Hread : read_transcript (delete KEY (session w)) = [WELCOME]).
  { unfold read_transcript. now rewrite lookup_delete_eq. }
  split; [reflexivity|].
  split; [apply lookup_delete_eq|].
  split; [exact Hread|].
  split; [cbn [session]; now rewrite Hread|].
  split; [reflexivity|].
  unfold index, bind at 1. rewrite seed_history_run.
  cbn [session trace method String.eqb Ascii.eqb Bool.eqb]. rewrite Hread.
  unfold render_page, bind at 1, session_get, try_except, bind, lift, ret.
  cbn [session trace]. rewrite lookup_insert_eq. cbn [default from_option id].
  destruct (render_template "index.html" [WELCOME]) as [html|e].
  - eexists _, _. split; [reflexivity|].
    split; [apply lookup_insert_eq|].
    intros ? [= <-]. split; reflexivity.
  - eexists _, _. split; [reflexivity|].
    split; [unfold print, emit, bind; cbn [session trace]; apply lookup_insert_eq|].
    intros ? [=].
Qed.

(** ** Histories the routes can build

    Every turn that [index] stores has exactly one fragment, and on such
    histories the first fragment of the last turn is its whole text. *)

Lemma render_page_session
    (render_template : string -> transcript -> outcome string) (w : world) :
  session (snd (render_page render_template w)) = session w.
Proof.
  unfold render_page, bind, session_get, try_except, lift, ret, print, emit.
  cbn [session trace].
  now destruct (render_template _ _).
Qed.

Lemma index_keeps_one_fragment
    (model : option GenerativeModel)
    (render_template : string -> transcript -> outcome string)
    (req : request) (w : world) :
  Forall one_fragment (read_transcript (session w)) ->
  Forall one_fragment
    (read_transcript (session (snd (index model render_template req w)))).
Proof.
  intros Hinv.
  set (before := read_transcript (session w)) in *.
  set (s1 := <[KEY := before]> (session w)).
  assert (H1 : Forall one_fragment (read_transcript s1)).
  { unfold s1. now rewrite read_transcript_insert. }
  unfold index, bind at 1. rewrite seed_history_run. fold before s1.
  destruct (String.eqb (method req) "POST").
  - destruct (form req !! "message") as [msg|]; [|exact H1].
    unfold bind, ret.
    destruct msg as [|c msg'] eqn:Emsg; [exact H1|]. rewrite <- Emsg.
    assert (Hmsg : msg <> "") by (subst msg; discriminate).
    destruct (get_gemini_response_returns model (before ++ [Turn "user" [msg]])
                (World (<[KEY := before ++ [Turn "user" [msg]]]> s1) (trace w)))
      as (reply & evs & Hr).
    cbn [session trace] in Hr.
    rewrite (post_message_run model msg s1 (trace w) before
               (lookup_insert_eq _ _ _) Hmsg reply evs Hr).
    cbn [snd session]. rewrite read_transcript_insert.
    apply Forall_app. split; [exact Hinv|].
    repeat constructor; eexists; reflexivity.
  - now rewrite render_page_session.
Qed.

Lemma clear_chat_keeps_one_fragment (w : world) :
  Forall one_fragment (read_transcript (session (snd (clear_chat w)))).
Proof.
  unfold clear_chat, bind, session_pop, ret. cbn [snd session].
  unfold read_transcript. rewrite lookup_delete_eq.
  repeat constructor. eexists; reflexivity.
Qed.

(** On a non-empty history of one-fragment turns the prompt is the one of
    the description. *)
Lemma assemble_one_fragment (init : transcript) (final : turn) :
  one_fragment final ->
  assemble (init ++ [final]) = Returns (assemble_spec init final).
Proof.
  intros [p Hp]. unfold assemble.
  rewrite last_user_message_snoc, Hp, conversation_history_snoc.
  unfold assemble_spec, turn_text. now rewrite Hp.
Qed.

(** * Further properties of the helper, the clean-up and the assembly *)

Lemma prompts_sent_app (a b : list event) :
  prompts_sent (a ++ b) = prompts_sent a ++ prompts_sent b.
Proof.
  induction a as [|[l|p] a IH]; cbn; [reflexivity | exact IH | now rewrite IH].
Qed.

Lemma printed_app (a b : list event) :
  printed (a ++ b) = printed a ++ printed b.
Proof.
  induction a as [|[l|p] a IH]; cbn; [reflexivity | now rewrite IH | exact IH].
Qed.

(** What the helper sends, whatever the model does with it. *)
Lemma get_gemini_response_trace
    (model : option GenerativeModel) (h : transcript) (w : world) :
  exists (reply : string) (evs : list event),
    get_gemini_response model h w
    = (Returns reply, World (session w) (trace w ++ evs))
    /\ prompts_sent evs
       = match model, assemble h with
         | Some _, Returns p => [p]
         | _, _ => []
         end.
Proof.
  destruct model as [m|].
  - run_helper.
    destruct (assemble h) as [p|e].
    + destruct (generate_content m p) as [r|e].
      * destruct (text r) as [raw|e].
        -- exists (sanitize raw), [GenerateContent p]. split; reflexivity.
        -- cbn [session trace]. eexists _, [_; _].
           rewrite <- app_assoc. split; reflexivity.
      * cbn [session trace]. eexists _, [_; _].
        rewrite <- app_assoc. split; reflexivity.
    + eexists _, [_]. split; reflexivity.
  - exists NOT_INITIALIZED, []. cbn. rewrite app_nil_r, world_eta.
    split; reflexivity.
Qed.


(** X2: a history whose last turn has no fragment at all makes the
    assembly fail inside the [try]: the helper answers with the
    could-not-connect string carrying [list index out of range], prints the
    error, and sends nothing to the model. *)
Theorem helper_on_fragmentless_last_turn
    (m : GenerativeModel) (init : transcript) (r : string) (w : world) :
  get_gemini_response (Some m) (init ++ [Turn r []]) w
  = (Returns "Error: Could not connect to Nexus AI. Please try again. (list index out of range)",
     World (session w)
       (trace w ++ [Print "Gemini API Error: list index out of range"])).
Proof.
  run_helper. now rewrite assemble_no_fragment.
Qed.

(** X3: when the model answers, the helper's reply is the cleaned answer
    and holds no asterisk, no vertical bar and no newline; one prompt was
    sent and nothing was printed. *)
Theorem helper_success_reply_clean
    (m : GenerativeModel) (h : transcript) (w : world) (p raw : string) :
  assemble h = Returns p ->
  client_returns m p raw ->
  exists reply : string,
    get_gemini_response (Some m) h w
    = (Returns reply, World (session w) (trace w ++ [GenerateContent p]))
    /\ reply = Py.expand sanitize_char raw
    /\ Py.occurs "*" reply = false
    /\ Py.occurs "|" reply = false
    /\ Py.occurs Py.LF reply = false.
Proof.
  intros Hp Hc. exists (sanitize raw).
  split; [exact (get_gemini_response_success m h w p raw Hp Hc)|].
  split; [apply sanitize_expand|].
  split; [|split]; apply sanitize_output_clean; auto.
Qed.

Lemma helper_success_reply_clean_witness :
  exists reply : string,
    get_gemini_response
      (Some {| generate_content :=
                 fun _ => Returns {| text := Returns ("**Hi**|" +:+ Py.nl +:+ "there") |} |})
      [Turn "user" ["hi"]] (World ∅ [])
    = (Returns reply, World ∅ [GenerateContent ("user: hi" +:+ Py.nl)])
    /\ reply = "Hi<br>there".
Proof.
  destruct (helper_success_reply_clean
              {| generate_content :=
                   fun _ => Returns {| text := Returns ("**Hi**|" +:+ Py.nl +:+ "there") |} |}
              [Turn "user" ["hi"]] (World ∅ []) ("user: hi" +:+ Py.nl)
              ("**Hi**|" +:+ Py.nl +:+ "there"))
    as (reply & Hr & He & _).
  - reflexivity.
  - eexists. split; reflexivity.
  - exists reply. split; [exact Hr | exact He].
Defined.

Lemma occurs_could_not_connect (c : ascii) (e : exn) :
  c = "*"%char \/ c = "|"%char \/ c = Py.LF ->
  Py.occurs c (could_not_connect e) = Py.occurs c (str e).
Proof.
  intros Hc. unfold could_not_connect.
  rewrite !occurs_app.
  destruct Hc as [->|[->| ->]]; cbn; now rewrite orb_false_r.
Qed.

(** X4: the error string is not passed through the clean-up: when the call
    of the model raises, the reply holds an asterisk (a vertical bar, a
    newline) exactly when the text of the exception does. *)
Theorem helper_failure_reply_not_cleaned
    (m : GenerativeModel) (h : transcript) (w : world) (p : string) (e : exn)
    (c : ascii) :
  assemble h = Returns p ->
  client_raises m p e ->
  c = "*"%char \/ c = "|"%char \/ c = Py.LF ->
  exists (reply : string) (w' : world),
    get_gemini_response (Some m) h w = (Returns reply, w')
    /\ Py.occurs c reply = Py.occurs c (str e).
Proof.
  intros Hp Hc Hch. eexists _, _.
  split; [exact (get_gemini_response_failure m h w p e Hp Hc)|].
  now apply occurs_could_not_connect.
Qed.

Lemma helper_failure_reply_not_cleaned_witness :
  exists (reply : string) (w' : world),
    get_gemini_response
      (Some {| generate_content := fun _ => Raises (Exception "field *parts* missing") |})
      [Turn "user" ["hi"]] (World ∅ [])
    = (Returns reply, w')
    /\ Py.occurs "*" reply = true.
Proof.
  apply (helper_failure_reply_not_cleaned
           {| generate_content := fun _ => Raises (Exception "field *parts* missing") |}
           [Turn "user" ["hi"]] (World ∅ []) ("user: hi" +:+ Py.nl)
           (Exception "field *parts* missing") "*").
  - reflexivity.
  - left. reflexivity.
  - left. reflexivity.
Defined.

(** X5: the clean-up works piece by piece: cleaning a concatenation is
    concatenating the cleaned pieces. *)
Theorem sanitize_app (a b : string) :
  sanitize (a +:+ b) = sanitize a +:+ sanitize b.
Proof. rewrite !sanitize_expand. apply expand_app. Qed.

Ltac by_characters :=
  unfold Py.nl; rewrite !replace_char, !expand_expand, sanitize_expand;
  apply expand_ext; intros c; unfold sanitize_char;
  destruct (Ascii.eqb_spec c "*") as [->|H1]; [reflexivity|];
  destruct (Ascii.eqb_spec c "|") as [->|H2]; [reflexivity|];
  destruct (Ascii.eqb_spec c Py.LF) as [->|H3]; [reflexivity|];
  repeat (cbn [Py.expand];
          rewrite ?append_nil_r, ?append_nil_l,
            ?(proj2 (Ascii.eqb_neq c "*") H1),
            ?(proj2 (Ascii.eqb_neq c "|") H2),
            ?(proj2 (Ascii.eqb_neq c Py.LF) H3));
  reflexivity.

(** X6: the order of the three replacements does not matter: each of the
    five other orders gives the same string as the order of the source. *)
Theorem sanitize_any_order (s : string) :
  Py.replace Py.nl "<br>" (Py.replace "*" "" (Py.replace "|" "" s)) = sanitize s
  /\ Py.replace "|" "" (Py.replace Py.nl "<br>" (Py.replace "*" "" s)) = sanitize s
  /\ Py.replace "|" "" (Py.replace "*" "" (Py.replace Py.nl "<br>" s)) = sanitize s
  /\ Py.replace "*" "" (Py.replace Py.nl "<br>" (Py.replace "|" "" s)) = sanitize s
  /\ Py.replace "*" "" (Py.replace "|" "" (Py.replace Py.nl "<br>" s)) = sanitize s.
Proof.
  repeat split; by_characters.
Qed.

Lemma replace_from_absent (old new s : string) :
  Py.contains old s = false -> Py.replace_from old new 0 s = s.
Proof.
  induction s as [|c s IH]; [reflexivity|].
  cbn [Py.contains Py.replace_from].
  intros [Hp Hc]%orb_false_elim.
  now rewrite Hp, IH.
Qed.

(** X7: [replace] leaves alone a string in which the (non-empty) pattern
    does not occur. *)
Theorem replace_absent (old new s : string) :
  old <> "" ->
  Py.contains old s = false ->
  Py.replace old new s = s.
Proof.
  intros Hold Hc. unfold Py.replace.
  destruct old as [|c old']; [congruence|].
  now apply replace_from_absent.
Qed.

Lemma replace_absent_witness :
  Py.replace "<br>" "!" "a*b|c" = "a*b|c".
Proof.
  apply (replace_absent "<br>" "!" "a*b|c"); [discriminate | reflexivity].
Defined.

(** X8: the assembly fails in one way only: it raises exactly when the
    history is not empty and its last turn has no fragment, and what it
    raises then is the index error. *)
Theorem assemble_raises_iff (h : transcript) (e : exn) :
  assemble h = Raises e
  <-> e = IndexError /\ exists init r, h = init ++ [Turn r []].
Proof.
  split.
  - destruct h as [|x l _] using rev_ind; [discriminate|].
    unfold assemble. rewrite last_user_message_snoc.
    destruct x as [r [|p ps]]; cbn [parts]; [|discriminate].
    intros [= <-]. split; [reflexivity|]. now exists l, r.
  - intros [-> (init & r & ->)]. apply assemble_no_fragment.
Qed.

Lemma concat_lines_app (a b : list string) :
  concat_lines (a ++ b) = concat_lines a +:+ concat_lines b.
Proof.
  induction a as [|x a IH]; [reflexivity|].
  cbn [app concat_lines]. now rewrite IH, append_assoc.
Qed.

(** X9: nothing of the history is cut off: the line of every turn before
    the last one stands in the prompt, whatever the length of the
    history. *)
Theorem assemble_keeps_every_turn
    (init : transcript) (final t : turn) (p : string) (rest : list string) :
  parts final = p :: rest ->
  t ∈ init ->
  exists pre post : string,
    assemble (init ++ [final]) = Returns (pre +:+ turn_line t +:+ post).
Proof.
  intros Hp (l1 & l2 & ->)%list_elem_of_split.
  exists (concat_lines (map turn_line l1)),
    (concat_lines (map turn_line l2) +:+ ("user: " +:+ p +:+ Py.nl)).
  unfold assemble.
  rewrite last_user_message_snoc, Hp, conversation_history_snoc.
  rewrite map_app, concat_lines_app. cbn [map concat_lines].
  now rewrite !append_assoc.
Qed.

Lemma assemble_keeps_every_turn_witness :
  exists pre post : string,
    assemble ([WELCOME; Turn "user" ["a"]; Turn "model" ["b"]] ++ [Turn "user" ["c"]])
    = Returns (pre +:+ ("user: a" +:+ Py.nl) +:+ post).
Proof.
  apply (assemble_keeps_every_turn
           [WELCOME; Turn "user" ["a"]; Turn "model" ["b"]]
           (Turn "user" ["c"]) (Turn "user" ["a"]) "c" []).
  - reflexivity.
  - set_solver.
Defined.

(** * Further properties of the routes *)

Lemma render_page_run
    (render_template : string -> transcript -> outcome string) (w : world) :
  render_page render_template w
  = match render_template "index.html" (default [] (session w !! KEY)) with
    | Returns html => (Returns (Body html 200), w)
    | Raises e =>
        (Returns (Body "Error: Template not found. Check terminal for details." 500),
         World (session w)
           (trace w ++
            [Print (times "=" 50);
             Print "CRITICAL ERROR: Failed to render 'index.html'.";
             Print ("Error: " +:+ str e);
             Print "Please check that 'index.html' is inside your 'templates' folder.";
             Print (times "=" 50)]))
    end.
Proof.
  unfold render_page, bind at 1, session_get, try_except.
  unfold bind at 1, lift, ret.
  destruct (render_template _ _) as [html|e]; [reflexivity|].
  unfold bind, print, emit. cbn [session trace].
  now rewrite <- !app_assoc.
Qed.

Lemma index_get_run
    (model : option GenerativeModel)
    (render_template : string -> transcript -> outcome string)
    (req : request) (w : world) :
  String.eqb (method req) "POST" = false ->
  index model render_template req w
  = render_page render_template
      (World (<[KEY := read_transcript (session w)]> (session w)) (trace w)).
Proof.
  intros Hm. unfold index, bind at 1. now rewrite seed_history_run, Hm.
Qed.

Lemma index_no_field_run
    (model : option GenerativeModel)
    (render_template : string -> transcript -> outcome string)
    (req : request) (w : world) :
  String.eqb (method req) "POST" = true ->
  form req !! "message" = None ->
  index model render_template req w
  = (Returns BadRequest,
     World (<[KEY := read_transcript (session w)]> (session w)) (trace w)).
Proof.
  intros Hm Hf. unfold index, bind at 1.
  now rewrite seed_history_run, Hm, Hf.
Qed.

(** A [POST] with a non-empty message, step by step. *)
Lemma index_post_nonempty
    (model : option GenerativeModel)
    (render_template : string -> transcript -> outcome string)
    (req : request) (msg : string) (w : world) :
  method req = "POST" ->
  form req !! "message" = Some msg ->
  msg <> "" ->
  exists (reply : string) (evs : list event),
    index model render_template req w
    = (Returns (Redirect "index"),
       World (<[KEY := read_transcript (session w)
                       ++ [Turn "user" [msg]; Turn "model" [reply]]]> (session w))
         (trace w ++ evs))
    /\ (exists w1 w2,
          get_gemini_response model
            (read_transcript (session w) ++ [Turn "user" [msg]]) w1
          = (Returns reply, w2))
    /\ prompts_sent evs
       = match model,
               assemble (read_transcript (session w) ++ [Turn "user" [msg]]) with
         | Some _, Returns p => [p]
         | _, _ => []
         end.
Proof.
  intros Hm Hf Hmsg.
  set (before := read_transcript (session w)).
  set (sent := before ++ [Turn "user" [msg]]).
  set (w1 := World (<[KEY := sent]> (<[KEY := before]> (session w))) (trace w)).
  destruct (get_gemini_response_trace model sent w1) as (reply & evs & Hr & Hp).
  cbn [session trace w1] in Hr. fold w1 in Hr.
  exists reply, evs. split; [|split; [eauto | exact Hp]].
  rewrite (index_post_run model render_template req msg w Hm Hf).
  fold before.
  rewrite (post_message_run model msg _ (trace w) before
             (lookup_insert_eq _ _ _) Hmsg reply evs Hr).
  now rewrite insert_insert_eq.
Qed.

(** Every request to [index] ends in a response; the history is the one
    read before, or that one with an exchange appended. *)
Lemma index_outcome
    (model : option GenerativeModel)
    (render_template : string -> transcript -> outcome string)
    (req : request) (w : world) :
  exists (r : response) (h' : transcript) (evs : list event),
    index model render_template req w
    = (Returns r, World (<[KEY := h']> (session w)) (trace w ++ evs))
    /\ (h' = read_transcript (session w)
        \/ exists msg reply,
             h' = read_transcript (session w)
                  ++ [Turn "user" [msg]; Turn "model" [reply]]).
Proof.
  destruct (String.eqb_spec (method req) "POST") as [Hm|Hm].
  - destruct (form req !! "message") as [msg|] eqn:Hf.
    + destruct (decide (msg = "")) as [->|Hmsg].
      * exists (Redirect "index"), (read_transcript (session w)), [].
        rewrite (index_post_run model render_template req "" w Hm Hf).
        rewrite app_nil_r. split; [reflexivity | now left].
      * destruct (index_post_nonempty model render_template req msg w Hm Hf Hmsg)
          as (reply & evs & Hi & _).
        eexists (Redirect "index"), _, evs. split; [exact Hi|].
        right. now exists msg, reply.
    + exists BadRequest, (read_transcript (session w)), [].
      rewrite index_no_field_run by (rewrite ?Hm; done).
      rewrite app_nil_r. split; [reflexivity | now left].
  - apply String.eqb_neq in Hm.
    rewrite (index_get_run model render_template req w Hm), render_page_run.
    cbn [session trace].
    destruct (render_template _ _) as [html|e].
    + eexists _, (read_transcript (session w)), [].
      rewrite app_nil_r. split; [reflexivity | now left].
    + eexists _, (read_transcript (session w)), _.
      split; [reflexivity | now left].
Qed.

(** X10: a request that is not a [POST] shows the page: the template gets
    the history as read (the welcome turn alone for a fresh session, never
    the empty default of [session.get]), the answer has status 200, nothing
    is printed and nothing is sent to the model. *)
Theorem index_get_renders
    (model : option GenerativeModel)
    (render_template : string -> transcript -> outcome string)
    (req : request) (w : world) (html : string) :
  method req <> "POST" ->
  render_template "index.html" (read_transcript (session w)) = Returns html ->
  index model render_template req w
  = (Returns (Body html 200),
     World (<[KEY := read_transcript (session w)]> (session w)) (trace w)).
Proof.
  intros Hm%String.eqb_neq Hr.
  rewrite (index_get_run model render_template req w Hm), render_page_run.
  cbn [session trace]. rewrite lookup_insert_eq. cbn [default from_option id].
  now rewrite Hr.
Qed.

Lemma index_get_renders_witness :
  index None (fun name h => Returns (name +:+ ":" +:+ Py.join "," (map role h)))
    (Request "GET" ∅) (World ∅ [])
  = (Returns (Body "index.html:model" 200), World {[KEY := [WELCOME]]} []).
Proof.
  rewrite (index_get_renders None
             (fun name h => Returns (name +:+ ":" +:+ Py.join "," (map role h)))
             (Request "GET" ∅) (World ∅ []) "index.html:model").
  - reflexivity.
  - discriminate.
  - reflexivity.
Defined.

(** X11: when the template cannot be rendered the request does not fail
    with the exception: five lines are printed, among them the text of the
    exception, and the answer is the fixed error text with status 500.  The
    session keeps its history. *)
Theorem index_get_render_failure
    (model : option GenerativeModel)
    (render_template : string -> transcript -> outcome string)
    (req : request) (w : world) (e : exn) :
  method req <> "POST" ->
  render_template "index.html" (read_transcript (session w)) = Raises e ->
  index model render_template req w
  = (Returns (Body "Error: Template not found. Check terminal for details." 500),
     World (<[KEY := read_transcript (session w)]> (session w))
       (trace w ++
        [Print "==================================================";
         Print "CRITICAL ERROR: Failed to render 'index.html'.";
         Print ("Error: " +:+ str e);
         Print "Please check that 'index.html' is inside your 'templates' folder.";
         Print "=================================================="])).
Proof.
  intros Hm%String.eqb_neq Hr.
  rewrite (index_get_run model render_template req w Hm), render_page_run.
  cbn [session trace]. rewrite lookup_insert_eq. cbn [default from_option id].
  now rewrite Hr.
Qed.

Lemma index_get_render_failure_witness :
  fst (index None (fun _ _ => Raises (Exception "index.html"))
         (Request "GET" ∅) (World ∅ []))
  = Returns (Body "Error: Template not found. Check terminal for details." 500).
Proof.
  rewrite (index_get_render_failure None (fun _ _ => Raises (Exception "index.html"))
             (Request "GET" ∅) (World ∅ []) (Exception "index.html")).
  - reflexivity.
  - discriminate.
  - reflexivity.
Defined.




(** X14: the routes touch one key of the session only: whatever else the
    session holds under another key is the same after [index] and after
    [clear_chat]. *)
Theorem routes_keep_other_keys
    (model : option GenerativeModel)
    (render_template : string -> transcript -> outcome string)
    (req : request) (w : world) (k : string) :
  k <> KEY ->
  session (snd (index model render_template req w)) !! k = session w !! k
  /\ session (snd (clear_chat w)) !! k = session w !! k.
Proof.
  intros Hk. split.
  - destruct (index_outcome model render_template req w)
      as (r & h' & evs & -> & _).
    cbn [snd session]. now apply lookup_insert_ne.
  - cbn. now apply lookup_delete_ne.
Qed.

Lemma routes_keep_other_keys_witness :
  session (snd (index None (fun _ _ => Returns "")
                  (Request "POST" {["message" := "hi"]})
                  (World {["draft" := [Turn "user" ["x"]]]} [])))
    !! "draft"
  = Some [Turn "user" ["x"]].
Proof.
  rewrite (proj1 (routes_keep_other_keys None (fun _ _ => Returns "")
                    (Request "POST" {["message" := "hi"]})
                    (World {["draft" := [Turn "user" ["x"]]]} []) "draft"
                    ltac:(discriminate))).
  reflexivity.
Defined.

(** X15: [index] only ever appends: the history read before the request is
    a prefix of the history read after it, so no turn is dropped or
    rewritten. *)
Theorem index_append_only
    (model : option GenerativeModel)
    (render_template : string -> transcript -> outcome string)
    (req : request) (w : world) :
  read_transcript (session w)
  `prefix_of` read_transcript (session (snd (index model render_template req w))).
Proof.
  destruct (index_outcome model render_template req w)
    as (r & h' & evs & -> & Hh).
  cbn [snd session]. rewrite read_transcript_insert.
  destruct Hh as [->|(msg & reply & ->)]; [done|].
  now apply prefix_app_r.
Qed.

(** X16: in the [POST] branch the assembly cannot fail, and with a model in
    place exactly one prompt is sent: the lines of the history read before
    the request, then the line [user: <message>]. *)
Theorem index_post_prompt
    (m : GenerativeModel)
    (render_template : string -> transcript -> outcome string)
    (req : request) (msg : string) (w : world) :
  method req = "POST" ->
  form req !! "message" = Some msg ->
  msg <> "" ->
  exists w' : world,
    index (Some m) render_template req w = (Returns (Redirect "index"), w')
    /\ prompts_sent (trace w')
       = prompts_sent (trace w)
         ++ [concat_lines (map turn_line (read_transcript (session w)))
             +:+ ("user: " +:+ msg +:+ Py.nl)].
Proof.
  intros Hm Hf Hmsg.
  destruct (index_post_nonempty (Some m) render_template req msg w Hm Hf Hmsg)
    as (reply & evs & Hi & _ & Hp).
  eexists. split; [exact Hi|].
  cbn [trace]. rewrite prompts_sent_app, Hp.
  unfold assemble.
  now rewrite last_user_message_snoc, conversation_history_snoc.
Qed.

Lemma index_post_prompt_witness :
  exists w' : world,
    index (Some {| generate_content := fun _ => Raises (Exception "down") |})
      (fun _ _ => Returns "") (Request "POST" {["message" := "hi"]})
      (World {[KEY := [Turn "model" ["Hello"]]]} [])
    = (Returns (Redirect "index"), w')
    /\ prompts_sent (trace w')
       = ["model: Hello" +:+ Py.nl +:+ "user: hi" +:+ Py.nl].
Proof.
  destruct (index_post_prompt
              {| generate_content := fun _ => Raises (Exception "down") |}
              (fun _ _ => Returns "") (Request "POST" {["message" := "hi"]}) "hi"
              (World {[KEY := [Turn "model" ["Hello"]]]} []))
    as (w' & Hi & Hp).
  - reflexivity.
  - reflexivity.
  - discriminate.
  - exists w'. split; [exact Hi|]. rewrite Hp. reflexivity.
Defined.

(** X17: the model is called by a [POST] with a non-empty message and by
    nothing else: a request of another method, a [POST] without the field
    or with an empty message, and any request while there is no model, send
    no prompt. *)
Theorem index_sends_nothing
    (model : option GenerativeModel)
    (render_template : string -> transcript -> outcome string)
    (req : request) (w : world) :
  method req <> "POST"
  \/ form req !! "message" = None
  \/ form req !! "message" = Some ""
  \/ model = None ->
  prompts_sent (trace (snd (index model render_template req w)))
  = prompts_sent (trace w).
Proof.
  intros Hcase.
  destruct (String.eqb_spec (method req) "POST") as [Hm|Hm].
  - destruct (form req !! "message") as [msg|] eqn:Hf.
    + destruct (decide (msg = "")) as [->|Hmsg].
      * now rewrite (index_post_run model render_template req "" w Hm Hf).
      * destruct Hcase as [?|[?|[?| ->]]]; [congruence..|].
        destruct (index_post_nonempty None render_template req msg w Hm Hf Hmsg)
          as (reply & evs & -> & _ & Hp).
        cbn [snd trace]. rewrite prompts_sent_app, Hp. apply app_nil_r.
    + rewrite index_no_field_run by (rewrite ?Hm; done). reflexivity.
  - apply String.eqb_neq in Hm.
    rewrite (index_get_run model render_template req w Hm), render_page_run.
    cbn [session trace].
    destruct (render_template _ _); cbn [snd trace]; [reflexivity|].
    rewrite prompts_sent_app. apply app_nil_r.
Qed.

Lemma index_sends_nothing_witness :
  prompts_sent
    (trace (snd (index (Some {| generate_content := fun _ => Raises (Exception "down") |})
                   (fun _ _ => Raises (Exception "no template"))
                   (Request "GET" ∅) (World ∅ [GenerateContent "earlier"]))))
  = ["earlier"].
Proof.
  apply (index_sends_nothing
           (Some {| generate_content := fun _ => Raises (Exception "down") |})
           (fun _ _ => Raises (Exception "no template"))
           (Request "GET" ∅) (World ∅ [GenerateContent "earlier"])).
  left. discriminate.
Defined.

(** X18: without a model the chat still takes the message: the history
    gets the user's turn and a model turn holding the not-initialized
    string; nothing is printed or sent. *)
Theorem index_post_without_model
    (render_template : string -> transcript -> outcome string)
    (req : request) (msg : string) (w : world) :
  method req = "POST" ->
  form req !! "message" = Some msg ->
  msg <> "" ->
  index None render_template req w
  = (Returns (Redirect "index"),
     World (<[KEY := read_transcript (session w)
                     ++ [Turn "user" [msg]; Turn "model" [NOT_INITIALIZED]]]>
              (session w))
       (trace w)).
Proof.
  intros Hm Hf Hmsg.
  rewrite (index_post_run None render_template req msg w Hm Hf).
  rewrite (post_message_run None msg _ (trace w) (read_transcript (session w))
             (lookup_insert_eq _ _ _) Hmsg NOT_INITIALIZED []).
  - now rewrite insert_insert_eq, app_nil_r.
  - now rewrite app_nil_r.
Qed.

Lemma index_post_without_model_witness :
  index None (fun _ _ => Returns "") (Request "POST" {["message" := "hi"]})
    (World ∅ [])
  = (Returns (Redirect "index"),
     World {[KEY := [WELCOME; Turn "user" ["hi"]; Turn "model" [NOT_INITIALIZED]]]} []).
Proof.
  rewrite (index_post_without_model (fun _ _ => Returns "")
             (Request "POST" {["message" := "hi"]}) "hi" (World ∅ []));
    [reflexivity | reflexivity | reflexivity | discriminate].
Defined.





(** X20: every turn the routes store has exactly one fragment: if it is so
    for the history read before a request to [index], it is so after it. *)
Theorem index_one_fragment_turns
    (model : option GenerativeModel)
    (render_template : string -> transcript -> outcome string)
    (req : request) (w : world) :
  Forall one_fragment (read_transcript (session w)) ->
  Forall one_fragment
    (read_transcript (session (snd (index model render_template req w)))).
Proof.
  intros Hinv.
  destruct (index_outcome model render_template req w)
    as (r & h' & evs & -> & Hh).
  cbn [snd session]. rewrite read_transcript_insert.
  destruct Hh as [->|(msg & reply & ->)]; [exact Hinv|].
  apply Forall_app. split; [exact Hinv|].
  repeat constructor; eexists; reflexivity.
Qed.

Lemma index_one_fragment_turns_witness :
  Forall one_fragment
    (read_transcript
       (session (snd (index None (fun _ _ => Returns "")
                        (Request "POST" {["message" := "hi"]})
                        (World ∅ []))))).
Proof.
  apply (index_one_fragment_turns None (fun _ _ => Returns "")
           (Request "POST" {["message" := "hi"]}) (World ∅ [])).
  repeat constructor. exists "Hi! I’m Nexus AI — your intelligent assistant. How can I help you today?".
  reflexivity.
Defined.

(** X21: [clear_chat] never fails: on a session without a history it
    changes nothing (the [pop] has a default), and clearing twice is the
    same as clearing once. *)
Theorem clear_chat_absent_and_twice (w : world) :
  (session w !! KEY = None -> clear_chat w = (Returns (Redirect "index"), w))
  /\ clear_chat (snd (clear_chat w)) = clear_chat w.
Proof.
  split.
  - intros Hk. unfold clear_chat, bind, session_pop, ret.
    now rewrite (delete_id _ _ Hk), world_eta.
  - unfold clear_chat, bind, session_pop, ret. cbn [snd session trace].
    now rewrite delete_delete_eq.
Qed.

(** * The scripts *)

Lemma said_app (a b : list Script.action) :
  Script.said (a ++ b) = Script.said a ++ Script.said b.
Proof.
  induction a as [|[] a IH]; cbn; rewrite ?IH; reflexivity.
Qed.

Lemma calls_app (a b : list Script.action) :
  Script.calls (a ++ b) = Script.calls a ++ Script.calls b.
Proof.
  induction a as [|[] a IH]; cbn; rewrite ?IH; reflexivity.
Qed.

Lemma calls_say (ls : list string) : Script.calls (map Script.Say ls) = [].
Proof. induction ls as [|l ls IH]; [reflexivity | exact IH]. Qed.

Lemma said_say (ls : list string) : Script.said (map Script.Say ls) = ls.
Proof. induction ls as [|l ls IH]; [reflexivity | cbn; now rewrite IH]. Qed.

Lemma for_each_say {A} (f : A -> string) (l : list A) (log : list Script.action) :
  Script.for_each l (fun x => Script.say (f x)) log
  = (Returns tt, log ++ map Script.Say (map f l)).
Proof.
  revert log. induction l as [|x l IH]; intros log.
  - cbn. now rewrite app_nil_r.
  - cbn [Script.for_each map]. unfold Script.sbind, Script.say at 1, Script.act.
    rewrite IH, <- app_assoc. reflexivity.
Qed.

Lemma print_available_run (available : Script.listing) (log : list Script.action) :
  Script.print_available available log
  = (Returns tt, log ++ map Script.Say (listing_lines available)).
Proof.
  destruct available as [items|repr]; [apply for_each_say | reflexivity].
Qed.

(** The four ways the [try] block of the start-up can go. *)
Lemma load_model_run
    (os : Script.surroundings) (key : option string) (model_name : string)
    (log : list Script.action) :
  Script.load_model os key model_name log
  = match Script.configure os key with
    | Raises e =>
        (Returns None,
         log ++ [Script.Configure key;
                 Script.Say ("Error configuring Gemini API client: " +:+ str e)])
    | Returns _ =>
        match Script.new_GenerativeModel os model_name with
        | Returns m =>
            (Returns (Some m),
             log ++ [Script.Configure key; Script.Construct model_name;
                     Script.Say ("Model '" +:+ model_name +:+ "' loaded successfully.")])
        | Raises inner_e =>
            (Returns None,
             log ++ [Script.Configure key; Script.Construct model_name;
                     Script.Say ("Requested model '" +:+ model_name
                                 +:+ "' failed to load: " +:+ str inner_e);
                     Script.Say "Attempting to list available models to help you choose a supported one...";
                     Script.ListModels]
                 ++ match Script.list_models os with
                    | Returns available =>
                        Script.Say "Available models returned by the API:"
                        :: map Script.Say (listing_lines available)
                        ++ [Script.Say "Set the GEMINI_MODEL environment variable to one of the above model identifiers and restart the app."]
                    | Raises list_e =>
                        [Script.Say ("Could not list models: " +:+ str list_e);
                         Script.Say "If you're using Google Cloud Generative AI, ensure your API key and permissions are correct."]
                    end)
        end
    end.
Proof.
  unfold Script.load_model, Script.stry at 1, Script.sbind at 1, Script.call at 1.
  destruct (Script.configure os key) as [[]|e].
  - unfold Script.stry at 1, Script.sbind at 1, Script.call at 1.
    destruct (Script.new_GenerativeModel os model_name) as [m|inner_e].
    + unfold Script.sbind, Script.say, Script.act, Script.sret.
      now rewrite <- !app_assoc.
    + unfold Script.sbind at 1, Script.say at 1, Script.act at 1.
      unfold Script.sbind at 1, Script.say at 1, Script.act at 1.
      unfold Script.sbind at 1, Script.stry at 1, Script.sbind at 1,
        Script.call at 1.
      destruct (Script.list_models os) as [available|list_e].
      * unfold Script.sbind at 1, Script.say at 1, Script.act at 1.
        unfold Script.sbind at 1. rewrite print_available_run.
        unfold Script.say, Script.act, Script.sret.
        rewrite <- !app_assoc. reflexivity.
      * unfold Script.sbind, Script.say, Script.act, Script.sret.
        rewrite <- !app_assoc. reflexivity.
  - unfold Script.sbind, Script.say, Script.act, Script.sret.
    now rewrite <- !app_assoc.
Qed.

Ltac run_startup :=
  unfold Script.startup, Script.folder_not_found, Script.key_not_found,
    Script.sbind, Script.say, Script.act, Script.sret;
  cbn beta iota.

Lemma startup_passed (os : Script.surroundings) (log : list Script.action) :
  checks_pass os ->
  Script.startup os log
  = match Script.load_model os (Script.getenv os "GEMINI_API_KEY")
            (default Script.DEFAULT_MODEL (Script.getenv os "GEMINI_MODEL"))
            (log ++ [Script.Say "--- Nexus AI Boot Check ---";
                     Script.Say ("Current Working Directory: " +:+ Script.getcwd os);
                     Script.Say "SUCCESS: Found 'templates' folder.";
                     Script.Say "SUCCESS: Found 'static' folder.";
                     Script.Say "---------------------------"])
    with
    | (Returns model, log') => (Returns (Script.Started model), log')
    | (Raises e, log') => (Raises e, log')
    end.
Proof.
  intros (Ht & Hs & Hk). run_startup.
  rewrite Ht, Hs, Hk. cbn [negb].
  now rewrite <- !app_assoc.
Qed.

Lemma startup_failed_check (os : Script.surroundings) (log : list Script.action) :
  ~ checks_pass os ->
  exists lines : list string,
    Script.startup os log = (Returns Script.Exited, log ++ map Script.Say lines).
Proof.
  unfold checks_pass. intros Hn. run_startup.
  destruct (Script.isdir os (Script.TEMPLATE_DIR os)); cbn [negb].
  - destruct (Script.isdir os (Script.STATIC_DIR os)); cbn [negb].
    + destruct (Script.key_missing _); [|tauto].
      eexists [_; _; _; _; _; _; _; _; _; _]. now rewrite <- !app_assoc.
    + eexists [_; _; _; _; _; _; _]. now rewrite <- !app_assoc.
  - eexists [_; _; _; _; _; _]. now rewrite <- !app_assoc.
Qed.

Lemma checks_pass_dec (os : Script.surroundings) :
  checks_pass os \/ ~ checks_pass os.
Proof.
  unfold checks_pass.
  destruct (Script.isdir os (Script.TEMPLATE_DIR os)),
    (Script.isdir os (Script.STATIC_DIR os)), (Script.key_missing _);
    intuition congruence.
Qed.


(** X23: the start-up exits exactly when a folder is missing or the key is
    unset or empty, and then it has made no call of the API at all: nothing
    is configured, constructed or listed. *)
Theorem startup_exits_iff (os : Script.surroundings) (log : list Script.action) :
  (fst (Script.startup os log) = Returns Script.Exited <-> ~ checks_pass os)
  /\ (~ checks_pass os ->
      Script.calls (snd (Script.startup os log)) = Script.calls log).
Proof.
  split; [split|].
  - intros He Hc. rewrite (startup_passed os log Hc), load_model_run in He.
    destruct (Script.configure os _); [destruct (Script.new_GenerativeModel os _)|];
      discriminate He.
  - intros Hc. now destruct (startup_failed_check os log Hc) as (lines & ->).
  - intros Hc. destruct (startup_failed_check os log Hc) as (lines & ->).
    cbn [snd]. now rewrite calls_app, calls_say, app_nil_r.
Qed.

(** X24: the global [model] is a model object exactly when the checks
    pass, [configure] returns and the constructor returns that object for
    the name in [GEMINI_MODEL] (or the default name when the variable is
    unset); in every other case the start-up leaves [model] at [None] or
    exits. *)
Theorem startup_model_iff
    (os : Script.surroundings) (log : list Script.action) (m : GenerativeModel) :
  fst (Script.startup os log) = Returns (Script.Started (Some m))
  <-> checks_pass os
      /\ Script.configure os (Script.getenv os "GEMINI_API_KEY") = Returns tt
      /\ Script.new_GenerativeModel os
           (default "gemini-2.5-flash-preview-09-2025"
              (Script.getenv os "GEMINI_MODEL"))
         = Returns m.
Proof.
  split.
  - intros Hs.
    destruct (checks_pass_dec os) as [Hc|Hc].
    + split; [exact Hc|].
      rewrite (startup_passed os log Hc), load_model_run in Hs.
      fold Script.DEFAULT_MODEL.
      destruct (Script.configure os _) as [[]|e]; [|discriminate Hs].
      destruct (Script.new_GenerativeModel os _) as [m'|e]; [|discriminate Hs].
      cbn in Hs. now injection Hs as ->.
    + destruct (startup_failed_check os log Hc) as (lines & Hl).
      rewrite Hl in Hs. discriminate Hs.
  - intros (Hc & Hconf & Hnew).
    rewrite (startup_passed os log Hc), load_model_run.
    fold Script.DEFAULT_MODEL in Hnew. now rewrite Hconf, Hnew.
Qed.

(** X25: once the checks have passed, the start-up calls [configure] with
    the key of the environment; if that returns it constructs the model,
    once; and it asks for the list of models once, exactly when the
    construction has failed.  A failing [configure] stops all further
    calls. *)
Theorem startup_calls (os : Script.surroundings) (log : list Script.action) :
  checks_pass os ->
  Script.calls (snd (Script.startup os log))
  = Script.calls log
    ++ Script.Configure (Script.getenv os "GEMINI_API_KEY")
       :: match Script.configure os (Script.getenv os "GEMINI_API_KEY") with
          | Raises _ => []
          | Returns _ =>
              Script.Construct
                (default Script.DEFAULT_MODEL (Script.getenv os "GEMINI_MODEL"))
              :: match Script.new_GenerativeModel os
                         (default Script.DEFAULT_MODEL
                            (Script.getenv os "GEMINI_MODEL")) with
                 | Returns _ => []
                 | Raises _ => [Script.ListModels]
                 end
          end.
Proof.
  intros Hc. rewrite (startup_passed os log Hc), load_model_run.
  destruct (Script.configure os _) as [u|e].
  - destruct (Script.new_GenerativeModel os _) as [m|e].
    + cbn [snd]. rewrite !calls_app. cbn. now rewrite app_nil_r.
    + cbn [snd]. rewrite !calls_app. cbn [Script.calls app].
      rewrite app_nil_r. do 3 f_equal.
      destruct (Script.list_models os) as [available|e']; [|reflexivity].
      cbn [Script.calls]. rewrite calls_app, calls_say. reflexivity.
  - cbn [snd]. rewrite !calls_app. cbn. now rewrite app_nil_r.
Qed.

Lemma startup_calls_witness :
  Script.calls (snd (Script.startup demo_surroundings []))
  = [Script.Configure (Some "secret");
     Script.Construct "gemini-2.5-flash-preview-09-2025";
     Script.ListModels].
Proof.
  rewrite (startup_calls demo_surroundings []).
  - reflexivity.
  - repeat split.
Defined.

Lemma for_each_say_if {A} (g : A -> bool) (f : A -> string) (l : list A)
    (log : list Script.action) :
  Script.for_each l (fun x => if g x then Script.say (f x) else Script.sret tt) log
  = (Returns tt, log ++ map Script.Say (map f (List.filter g l))).
Proof.
  revert log. induction l as [|x l IH]; intros log.
  - cbn. now rewrite app_nil_r.
  - cbn [Script.for_each List.filter]. unfold Script.sbind.
    destruct (g x).
    + unfold Script.say at 1, Script.act. rewrite IH, <- app_assoc. reflexivity.
    + unfold Script.sret at 1. now rewrite IH.
Qed.

(** How [list_models.py] runs, by what the API does. *)
Lemma list_models_script_run (a : Script.api) (log : list Script.action) :
  Script.list_models_script a log
  = (Returns tt,
     log ++ Script.Configure (Script.environ a "GEMINI_API_KEY")
     :: match Script.api_configure a (Script.environ a "GEMINI_API_KEY") with
        | Raises e => [Script.Say ("Error listing models: " +:+ str e)]
        | Returns _ =>
            Script.Say "Available models:" :: Script.ListModels
            :: match Script.api_list_models a with
               | Raises e => [Script.Say ("Error listing models: " +:+ str e)]
               | Returns models =>
                   map Script.Say
                     (map Script.name
                        (List.filter Script.generates_content (Script.yielded models)))
                   ++ match Script.broken models with
                      | Some e => [Script.Say ("Error listing models: " +:+ str e)]
                      | None => []
                      end
               end
        end).
Proof.
  unfold Script.list_models_script, Script.stry, Script.sbind at 1, Script.call at 1.
  destruct (Script.api_configure a _) as [[]|e].
  - unfold Script.sbind at 1, Script.say at 1, Script.act at 1.
    unfold Script.sbind at 1, Script.call at 1.
    destruct (Script.api_list_models a) as [models|e].
    + unfold Script.sbind at 1. rewrite for_each_say_if.
      destruct (Script.broken models) as [e|].
      * unfold Script.sraise, Script.say, Script.act.
        rewrite <- !app_assoc. reflexivity.
      * unfold Script.sret. rewrite <- !app_assoc, app_nil_r. reflexivity.
    + unfold Script.say, Script.act. rewrite <- !app_assoc. reflexivity.
  - unfold Script.say, Script.act. rewrite <- !app_assoc. reflexivity.
Qed.

(** X26: when [configure] and [list_models] return, [list_models.py]
    prints the heading, then the name of every yielded model that supports
    [generateContent], in the order of the listing and nothing else; if the
    iteration breaks off, the names printed so far stay and the error line
    follows. *)
Theorem list_models_script_prints
    (a : Script.api) (models : Script.stream) (log : list Script.action) :
  Script.api_configure a (Script.environ a "GEMINI_API_KEY") = Returns tt ->
  Script.api_list_models a = Returns models ->
  Script.said (snd (Script.list_models_script a log))
  = Script.said log
    ++ "Available models:"
       :: map Script.name
            (List.filter Script.generates_content (Script.yielded models))
       ++ match Script.broken models with
          | Some e => ["Error listing models: " +:+ str e]
          | None => []
          end.
Proof.
  intros Hc Hl. rewrite list_models_script_run, Hc, Hl.
  cbn [snd]. rewrite said_app. cbn [Script.said].
  rewrite said_app, said_say.
  now destruct (Script.broken models).
Qed.

Lemma list_models_script_prints_witness :
  Script.said (snd (Script.list_models_script demo_api []))
  = ["Available models:"; "models/gemini-pro"; "models/gemini-flash";
     "Error listing models: 503 unavailable"].
Proof.
  rewrite (list_models_script_prints demo_api
             {| Script.yielded :=
                  [ {| Script.name := "models/embedding-001";
                       Script.supported_generation_methods := ["embedContent"] |};
                    {| Script.name := "models/gemini-pro";
                       Script.supported_generation_methods :=
                         ["generateContent"; "countTokens"] |};
                    {| Script.name := "models/gemini-flash";
                       Script.supported_generation_methods := ["generateContent"] |} ];
                Script.broken := Some (Exception "503 unavailable") |} []);
    reflexivity.
Defined.


(** X28: when [configure] raises, [list_models.py] prints the error line
    only: no heading, and the API is not asked for the models. *)
Theorem list_models_script_configure_failure
    (a : Script.api) (e : exn) (log : list Script.action) :
  Script.api_configure a (Script.environ a "GEMINI_API_KEY") = Raises e ->
  Script.list_models_script a log
  = (Returns tt,
     log ++ [Script.Configure (Script.environ a "GEMINI_API_KEY");
             Script.Say ("Error listing models: " +:+ str e)]).
Proof.
  intros Hc. now rewrite list_models_script_run, Hc.
Qed.

Lemma list_models_script_configure_failure_witness :
  Script.list_models_script
    {| Script.environ := fun _ => None;
       Script.api_configure := fun _ => Raises (Exception "no API key");
       Script.api_list_models := Raises (Exception "unreachable") |} []
  = (Returns tt,
     [Script.Configure None; Script.Say "Error listing models: no API key"]).
Proof.
  rewrite (list_models_script_configure_failure
             {| Script.environ := fun _ => None;
                Script.api_configure := fun _ => Raises (Exception "no API key");
                Script.api_list_models := Raises (Exception "unreachable") |}
             (Exception "no API key") []);
    reflexivity.
Defined.
